(** * ResumeXpert: the submit pipeline of [app.py]

    A shallow embedding of the Streamlit script [src/app.py]: resume text
    extraction ([input_pdf_text]), prompt compilation
    ([input_prompt.format]), the completion call ([get_groq_response]) and
    the submit handler that parses the model's answer with [json.loads] and
    renders it.

    Python values are modelled as follows.
    - A [str] is the list of its Unicode code points.
    - The objects [json.loads] can return form the inductive [pyvalue]; a
      [dict] is an association list in insertion order without duplicate
      keys.
    - An exception is a value of [exn]; code that may raise returns a sum.
    - The Streamlit calls and the request to the completion service are
      recorded, in order and with their arguments, in a log of [effect]s
      that is threaded through the handler; [st.stop()] and an exception
      nobody catches end the run.  What Streamlit does with the arguments
      of a call is not modelled.
    - The PDF library and the completion service are inputs: an upload
      is what [pdf.PdfReader] makes of it, the service a function from
      the prompt to what [client.chat.completions.create] does.
    Interpreter resource limits (recursion depth, the digit limit of
    [int]) are not part of the model. *)

From Stdlib Require Import List NArith ZArith String Ascii Bool Lia.
Import ListNotations.

Set Implicit Arguments.
Set Warnings "-register-all".

(** ** Python strings *)

Module PyStr.

Definition char := N.
Definition str := list char.

(** A literal of the source, byte for byte (ASCII literals only). *)
Definition lit (s : string) : str :=
  map N_of_ascii (list_ascii_of_string s).

(** The same, for literals of the source that contain double quotes:
    an apostrophe in the Rocq literal stands for the character U+0022.
    No literal of the source written this way holds an apostrophe. *)
Definition litq (s : string) : str :=
  map (fun c => if N.eqb c 39 then 34%N else c) (lit s).

Definition eqb (a b : str) : bool :=
  if list_eq_dec N.eq_dec a b then true else false.

(** [str.isspace] on one character: the code points CPython lists in
    [_PyUnicode_IsWhitespace]. *)
Definition isspace (c : char) : bool :=
  existsb (N.eqb c)
    [ 0x09; 0x0A; 0x0B; 0x0C; 0x0D; 0x1C; 0x1D; 0x1E; 0x1F; 0x20;
      0x85; 0xA0; 0x1680;
      0x2000; 0x2001; 0x2002; 0x2003; 0x2004; 0x2005; 0x2006; 0x2007;
      0x2008; 0x2009; 0x200A;
      0x2028; 0x2029; 0x202F; 0x205F; 0x3000 ]%N.

Fixpoint lstrip (s : str) : str :=
  match s with
  | [] => []
  | c :: r => if isspace c then lstrip r else s
  end.

Definition rstrip (s : str) : str := rev (lstrip (rev s)).

(** [s.strip()] *)
Definition strip (s : str) : str := rstrip (lstrip s).

(** [sep.join(parts)] on strings *)
Fixpoint join (sep : str) (parts : list str) : str :=
  match parts with
  | [] => []
  | [p] => p
  | p :: ps => p ++ sep ++ join sep ps
  end.

(** A string is true when it is not empty. *)
Definition truthy (s : str) : bool :=
  match s with [] => false | _ :: _ => true end.

End PyStr.

Import PyStr.

(** ** Exceptions *)

Inductive exn : Type :=
| AttributeError
| TypeError
| KeyError (key : str)
| IndexError
| ValueError
| JSONDecodeError
| ExternalError (name : string).

(** [except json.JSONDecodeError] catches exactly [JSONDecodeError];
    [except Exception] catches every [exn]. *)
Definition is_JSONDecodeError (e : exn) : bool :=
  match e with JSONDecodeError => true | _ => false end.

(** ** [str.format] with keyword arguments

    The model covers the replacement fields the template uses: a keyword
    name between single braces, and the doubled braces that stand for a
    literal brace.  A field with a conversion, a format specification, an
    attribute or an index is outside the model ([FmtUnmodelled]). *)

Inductive fmt_result : Type :=
| FmtOk (s : str)
| FmtRaise (e : exn)
| FmtUnmodelled.

Definition fmt_push (c : char) (r : fmt_result) : fmt_result :=
  match r with FmtOk s => FmtOk (c :: s) | _ => r end.

Definition fmt_append (v : str) (r : fmt_result) : fmt_result :=
  match r with FmtOk s => FmtOk (v ++ s) | _ => r end.

Definition lbrace : char := 123%N.
Definition rbrace : char := 125%N.

Definition is_digit (c : char) : bool := (48 <=? c)%N && (c <=? 57)%N.

Fixpoint kw_lookup (kwargs : list (str * str)) (name : str) : option str :=
  match kwargs with
  | [] => None
  | (k, v) :: r => if eqb k name then Some v else kw_lookup r name
  end.

(** The value of the field [name]: an empty name or a number is a
    positional index, and [format] is called without positional
    arguments; any other name is looked up among the keywords. *)
Definition fmt_field (kwargs : list (str * str)) (name : str) : exn + str :=
  if forallb is_digit name then inl IndexError
  else match kw_lookup kwargs name with
       | Some v => inr v
       | None => inl (KeyError name)
       end.

(** [field = None]: scanning literal text; [field = Some acc]: inside a
    replacement field whose name read so far is [rev acc]. *)
Fixpoint format_scan (kwargs : list (str * str)) (field : option str)
         (tpl : str) : fmt_result :=
  match field, tpl with
  | None, [] => FmtOk []
  | None, c :: r =>
      if N.eqb c lbrace then
        match r with
        | [] => FmtRaise ValueError
        | c' :: r' =>
            if N.eqb c' lbrace then fmt_push lbrace (format_scan kwargs None r')
            else format_scan kwargs (Some []) r
        end
      else if N.eqb c rbrace then
        match r with
        | [] => FmtRaise ValueError
        | c' :: r' =>
            if N.eqb c' rbrace then fmt_push rbrace (format_scan kwargs None r')
            else FmtRaise ValueError
        end
      else fmt_push c (format_scan kwargs None r)
  | Some _, [] => FmtRaise ValueError
  | Some acc, c :: r =>
      if N.eqb c rbrace then
        match fmt_field kwargs (rev acc) with
        | inl e => FmtRaise e
        | inr v => fmt_append v (format_scan kwargs None r)
        end
      else if N.eqb c lbrace then FmtRaise ValueError
      else if existsb (N.eqb c) [33; 58; 46; 91]%N then FmtUnmodelled
      else format_scan kwargs (Some (c :: acc)) r
  end.

(** [tpl.format] called with the keyword arguments [kwargs] *)
Definition format (tpl : str) (kwargs : list (str * str)) : fmt_result :=
  format_scan kwargs None tpl.

(** ** The prompt template (lines 41-60) *)

Definition input_prompt : str := litq "
Act as an ATS (Application Tracking System) specializing in technical roles (Software Engineering, Data Science, Data Analysis, Big Data Engineering).
Analyze the following:

Resume: {text}
Job Description: {jd}

**STRICT INSTRUCTIONS:**  
- Respond **only** in valid JSON format (no extra text).  
- Ensure the response starts with `{{` and ends with `}}`.  
- If no data, return an empty list `[]` or `'N/A'`.  

Return the response in **this exact JSON structure**:
{{
  'JD Match': 'X%',
  'MissingKeywords': ['keyword1', 'keyword2', ...],
  'ProfileSummary': 'summary text',
  'Suggestions': ['suggestion1', 'suggestion2', ...]
}}
".

(** [input_prompt.format(text=text, jd=jd)] (line 100) *)
Definition compile_prompt (text jd : str) : fmt_result :=
  format input_prompt [(lit "text", text); (lit "jd", jd)].

(** ** Python values, as [json.loads] builds them *)

(** A float is [nan], an infinity, or the decimal literal it was read
    from: [FDec neg m e] stands for the double nearest to
    [(-1)^neg * m * 10^e].  The handler only ever asks whether a float is
    zero. *)
Inductive pyfloat : Type :=
| FNaN
| FInf (neg : bool)
| FDec (neg : bool) (m : N) (e : Z).

Inductive pyvalue : Type :=
| PyNone
| PyBool (b : bool)
| PyInt (z : Z)
| PyFloat (f : pyfloat)
| PyStr (s : str)
| PyList (items : list pyvalue)
| PyDict (items : list (str * pyvalue)).

(** A [dict] with [str] keys: insertion order, one entry per key. *)
Definition dict := list (str * pyvalue).

Fixpoint dict_lookup (d : dict) (k : str) : option pyvalue :=
  match d with
  | [] => None
  | (k', v) :: r => if eqb k' k then Some v else dict_lookup r k
  end.

(** [d[k] = v]: a key already present keeps its place. *)
Fixpoint dict_set (d : dict) (k : str) (v : pyvalue) : dict :=
  match d with
  | [] => [(k, v)]
  | (k', v') :: r =>
      if eqb k' k then (k', v) :: r else (k', v') :: dict_set r k v
  end.

(** Decimal rounding to a double gives zero exactly when the magnitude is
    at most [2^-1075], half of the least positive double (ties go to the
    even neighbour, which is zero). *)
Definition float_is_zero (f : pyfloat) : bool :=
  match f with
  | FNaN | FInf _ => false
  | FDec _ m e =>
      if (0 <=? e)%Z then N.eqb m 0
      else (Z.of_N m * 2 ^ 1075 <=? 10 ^ (- e))%Z
  end.

(** ** [json.loads]

    The decoder of the standard library with its default settings
    ([strict] strings, [NaN], [Infinity] and [-Infinity] accepted),
    written as a tokenizer followed by a pushdown automaton.  Every way
    of failing raises [json.JSONDecodeError]. *)

Module Json.

Inductive token : Type :=
| TLBrace | TRBrace | TLBracket | TRBracket | TColon | TComma
| TString (s : str)
| TAtom (v : pyvalue).

(** The JSON whitespace: space, tab, line feed, carriage return. *)
Definition is_ws (c : char) : bool :=
  existsb (N.eqb c) [32; 9; 10; 13]%N.

Fixpoint is_prefix (p s : str) : bool :=
  match p, s with
  | [], _ => true
  | a :: p', b :: s' => N.eqb a b && is_prefix p' s'
  | _ :: _, [] => false
  end.

Fixpoint span_digits (s : str) : str * str :=
  match s with
  | c :: r =>
      if is_digit c then let (ds, rest) := span_digits r in (c :: ds, rest)
      else ([], s)
  | [] => ([], [])
  end.

Definition digits_value (ds : str) : N :=
  fold_left (fun acc c => (10 * acc + (c - 48))%N) ds 0%N.

(** The integer part of a number: [0] or a digit string that does not
    start with [0]. *)
Definition scan_int_part (s : str) : option (str * str) :=
  match s with
  | c :: r =>
      if N.eqb c 48 then Some ([c], r)
      else if is_digit c then Some (span_digits s)
      else None
  | [] => None
  end.

(** The optional fraction: a dot followed by at least one digit. *)
Definition scan_frac (s : str) : option str * str :=
  match s with
  | c :: r =>
      if N.eqb c 46 then
        match span_digits r with
        | ([], _) => (None, s)
        | (ds, rest) => (Some ds, rest)
        end
      else (None, s)
  | [] => (None, s)
  end.

(** The optional exponent: [e] or [E], an optional sign, at least one
    digit.  The result also counts the characters of the mark and the
    sign. *)
Definition scan_exp (s : str) : option (Z * nat) * str :=
  match s with
  | c :: r =>
      if N.eqb c 101 || N.eqb c 69 then
        let '(neg, signed, r1) :=
          match r with
          | sg :: r' =>
              if N.eqb sg 45 then (true, 1, r')
              else if N.eqb sg 43 then (false, 1, r')
              else (false, 0, r)
          | [] => (false, 0, r)
          end in
        match span_digits r1 with
        | ([], _) => (None, s)
        | (ds, rest) =>
            let v := Z.of_N (digits_value ds) in
            (Some (if neg then (- v)%Z else v, 1 + signed + List.length ds),
             rest)
        end
      else (None, s)
  | [] => (None, s)
  end.

(** A number at the head of [s]: its value and its length.  Without
    fraction and exponent it is an [int], otherwise a [float]. *)
Definition scan_number (s : str) : option (pyvalue * nat) :=
  let '(neg, s1) :=
    match s with
    | c :: r => if N.eqb c 45 then (true, r) else (false, s)
    | [] => (false, s)
    end in
  match scan_int_part s1 with
  | None => None
  | Some (ids, s2) =>
      let '(frac, s3) := scan_frac s2 in
      let '(ex, _) := scan_exp s3 in
      let len0 := (if neg then 1 else 0) + List.length ids in
      match frac, ex with
      | None, None =>
          let v := Z.of_N (digits_value ids) in
          Some (PyInt (if neg then (- v)%Z else v), len0)
      | _, _ =>
          let fds := match frac with Some ds => ds | None => [] end in
          let flen := match frac with
                      | Some ds => 1 + List.length ds | None => 0 end in
          let '(ev, elen) := match ex with
                             | Some (v, n) => (v, n) | None => (0%Z, 0) end in
          Some (PyFloat (FDec neg (digits_value (ids ++ fds))
                           (ev - Z.of_nat (List.length fds))),
                len0 + flen + elen)
      end
  end.

Definition hex_digit (c : char) : option N :=
  if is_digit c then Some (c - 48)%N
  else if (65 <=? c)%N && (c <=? 70)%N then Some (c - 55)%N
  else if (97 <=? c)%N && (c <=? 102)%N then Some (c - 87)%N
  else None.

Definition hex4 (a b c d : char) : option N :=
  match hex_digit a, hex_digit b, hex_digit c, hex_digit d with
  | Some x, Some y, Some z, Some w =>
      Some (((x * 16 + y) * 16 + z) * 16 + w)%N
  | _, _, _, _ => None
  end.

Definition is_high_surrogate (u : N) : bool :=
  (0xD800 <=? u)%N && (u <=? 0xDBFF)%N.
Definition is_low_surrogate (u : N) : bool :=
  (0xDC00 <=? u)%N && (u <=? 0xDFFF)%N.
Definition combine_surrogates (hi lo : N) : N :=
  (0x10000 + ((hi - 0xD800) * 1024 + (lo - 0xDC00)))%N.

(** The character a one-letter escape stands for. *)
Definition unescape (c : char) : option char :=
  if N.eqb c 34 then Some 34%N            (* quote *)
  else if N.eqb c 92 then Some 92%N       (* backslash *)
  else if N.eqb c 47 then Some 47%N       (* slash *)
  else if N.eqb c 98 then Some 8%N        (* b *)
  else if N.eqb c 102 then Some 12%N      (* f *)
  else if N.eqb c 110 then Some 10%N      (* n *)
  else if N.eqb c 114 then Some 13%N      (* r *)
  else if N.eqb c 116 then Some 9%N       (* t *)
  else None.

Definition str_cons (c : char) (n : nat) (r : option (str * nat))
  : option (str * nat) :=
  match r with
  | Some (s, k) => Some (c :: s, n + k)
  | None => None
  end.

(** The string whose opening quote has just been read: its content and
    the number of characters up to and including the closing quote. *)
Fixpoint scan_string (s : str) : option (str * nat) :=
  match s with
  | [] => None
  | c :: r =>
      if N.eqb c 34 then Some ([], 1)
      else if N.eqb c 92 then
        match r with
        | [] => None
        | e :: r1 =>
            if N.eqb e 117 then
              match r1 with
              | h1 :: h2 :: h3 :: h4 :: r2 =>
                  match hex4 h1 h2 h3 h4 with
                  | None => None
                  | Some uni =>
                      match r2 with
                      | b :: u :: l1 :: l2 :: l3 :: l4 :: r3 =>
                          match
                            (if is_high_surrogate uni && N.eqb b 92
                                && N.eqb u 117
                             then hex4 l1 l2 l3 l4 else None)
                          with
                          | Some uni2 =>
                              if is_low_surrogate uni2
                              then str_cons (combine_surrogates uni uni2) 12
                                     (scan_string r3)
                              else str_cons uni 6 (scan_string r2)
                          | None => str_cons uni 6 (scan_string r2)
                          end
                      | _ => str_cons uni 6 (scan_string r2)
                      end
                  end
              | _ => None
              end
            else
              match unescape e with
              | Some c' => str_cons c' 2 (scan_string r1)
              | None => None
              end
        end
      else if (c <? 32)%N then None
      else str_cons c 1 (scan_string r)
  end.

Definition tok_cons (t : token) (r : option (list token))
  : option (list token) :=
  match r with Some ts => Some (t :: ts) | None => None end.

(** The token that starts at the head of [s], with its length; white
    space is not a token. *)
Definition scan_token (s : str) : option (token * nat) :=
  match s with
  | [] => None
  | c :: r =>
      if N.eqb c 123 then Some (TLBrace, 1)
      else if N.eqb c 125 then Some (TRBrace, 1)
      else if N.eqb c 91 then Some (TLBracket, 1)
      else if N.eqb c 93 then Some (TRBracket, 1)
      else if N.eqb c 58 then Some (TColon, 1)
      else if N.eqb c 44 then Some (TComma, 1)
      else if N.eqb c 34 then
        match scan_string r with
        | Some (v, n) => Some (TString v, 1 + n)
        | None => None
        end
      else if is_prefix (lit "null") s then Some (TAtom PyNone, 4)
      else if is_prefix (lit "true") s then Some (TAtom (PyBool true), 4)
      else if is_prefix (lit "false") s then Some (TAtom (PyBool false), 5)
      else
        match scan_number s with
        | Some (v, n) => Some (TAtom v, n)
        | None =>
            if is_prefix (lit "NaN") s then Some (TAtom (PyFloat FNaN), 3)
            else if is_prefix (lit "Infinity") s
                 then Some (TAtom (PyFloat (FInf false)), 8)
            else if is_prefix (lit "-Infinity") s
                 then Some (TAtom (PyFloat (FInf true)), 9)
            else None
        end
  end.

(** [skip] characters still belong to the token read last. *)
Fixpoint tokenize (skip : nat) (s : str) : option (list token) :=
  match s with
  | [] => Some []
  | c :: r =>
      match skip with
      | S k => tokenize k r
      | O =>
          if is_ws c then tokenize 0 r
          else
            match scan_token s with
            | Some (t, n) => tok_cons t (tokenize (pred n) r)
            | None => None
            end
      end
  end.

(** The containers that are open: a list with its items so far
    (reversed), or a dict with its entries so far and the key that
    waits for its value. *)
Inductive frame : Type :=
| FList (items_rev : list pyvalue)
| FDict (entries : dict) (key : option str).

Inductive expect : Type :=
| EValue            (* a value *)
| EValueOrClose     (* after an opening bracket *)
| EKeyOrClose       (* after an opening brace *)
| EKey              (* after a comma in a dict *)
| EColon            (* after a key *)
| ECommaOrClose     (* after a value inside a container *)
| EEnd (v : pyvalue). (* the document is complete *)

Definition pstate : Type := list frame * expect.

(** A value is complete: it is the document, or goes into the
    innermost open container. *)
Definition push_value (stack : list frame) (v : pyvalue) : option pstate :=
  match stack with
  | [] => Some ([], EEnd v)
  | FList items :: st => Some (FList (v :: items) :: st, ECommaOrClose)
  | FDict d (Some k) :: st =>
      Some (FDict (dict_set d k v) None :: st, ECommaOrClose)
  | FDict _ None :: _ => None
  end.

Definition set_key (stack : list frame) (k : str) : option pstate :=
  match stack with
  | FDict d None :: st => Some (FDict d (Some k) :: st, EColon)
  | _ => None
  end.

Definition start_value (stack : list frame) (t : token) : option pstate :=
  match t with
  | TString s => push_value stack (PyStr s)
  | TAtom v => push_value stack v
  | TLBracket => Some (FList [] :: stack, EValueOrClose)
  | TLBrace => Some (FDict [] None :: stack, EKeyOrClose)
  | _ => None
  end.

Definition close_list (stack : list frame) : option pstate :=
  match stack with
  | FList items :: st => push_value st (PyList (rev items))
  | _ => None
  end.

Definition close_dict (stack : list frame) : option pstate :=
  match stack with
  | FDict d None :: st => push_value st (PyDict d)
  | _ => None
  end.

Definition step (st : pstate) (t : token) : option pstate :=
  let (stack, e) := st in
  match e, t with
  | EValue, _ => start_value stack t
  | EValueOrClose, TRBracket => close_list stack
  | EValueOrClose, _ => start_value stack t
  | EKeyOrClose, TRBrace => close_dict stack
  | EKeyOrClose, TString k => set_key stack k
  | EKey, TString k => set_key stack k
  | EColon, TColon => Some (stack, EValue)
  | ECommaOrClose, TComma =>
      match stack with
      | FList _ :: _ => Some (stack, EValue)
      | FDict _ None :: _ => Some (stack, EKey)
      | _ => None
      end
  | ECommaOrClose, TRBracket => close_list stack
  | ECommaOrClose, TRBrace => close_dict stack
  | _, _ => None
  end.

Fixpoint run (st : pstate) (ts : list token) : option pyvalue :=
  match ts with
  | [] => match st with ([], EEnd v) => Some v | _ => None end
  | t :: r => match step st t with Some st' => run st' r | None => None end
  end.

Definition loads (s : str) : exn + pyvalue :=
  match tokenize 0 s with
  | None => inl JSONDecodeError
  | Some ts =>
      match run ([], EValue) ts with
      | Some v => inr v
      | None => inl JSONDecodeError
      end
  end.

End Json.

(** ** The built-in operations the handler applies to the parsed value *)

(** [bool(v)] *)
Definition py_truthy (v : pyvalue) : bool :=
  match v with
  | PyNone => false
  | PyBool b => b
  | PyInt z => negb (Z.eqb z 0)
  | PyFloat f => negb (float_is_zero f)
  | PyStr s => truthy s
  | PyList l => match l with [] => false | _ :: _ => true end
  | PyDict d => match d with [] => false | _ :: _ => true end
  end.

(** [len(v)] *)
Definition py_len (v : pyvalue) : exn + Z :=
  match v with
  | PyStr s => inr (Z.of_nat (List.length s))
  | PyList l => inr (Z.of_nat (List.length l))
  | PyDict d => inr (Z.of_nat (List.length d))
  | PyNone | PyBool _ | PyInt _ | PyFloat _ => inl TypeError
  end.

(** [iter(v)], run to the end: the items of a list, the characters of a
    string, the keys of a dict. *)
Definition py_iter (v : pyvalue) : exn + list pyvalue :=
  match v with
  | PyStr s => inr (map (fun c => PyStr [c]) s)
  | PyList l => inr l
  | PyDict d => inr (map (fun kv => PyStr (fst kv)) d)
  | PyNone | PyBool _ | PyInt _ | PyFloat _ => inl TypeError
  end.

Fixpoint all_str (l : list pyvalue) : option (list str) :=
  match l with
  | [] => Some []
  | PyStr s :: r =>
      match all_str r with Some ss => Some (s :: ss) | None => None end
  | _ :: _ => None
  end.

(** [sep.join(v)]: [v] must be iterable and yield only strings. *)
Definition py_join (sep : str) (v : pyvalue) : exn + str :=
  match py_iter v with
  | inl e => inl e
  | inr items =>
      match all_str items with
      | Some ss => inr (join sep ss)
      | None => inl TypeError
      end
  end.

(** [v.get(k, dflt)]: only a dict has the method. *)
Definition py_get (v : pyvalue) (k : str) (dflt : pyvalue) : exn + pyvalue :=
  match v with
  | PyDict d =>
      inr (match dict_lookup d k with Some x => x | None => dflt end)
  | _ => inl AttributeError
  end.

(** [enumerate(items, start)] *)
Fixpoint enumerate (start : Z) (items : list pyvalue) : list (Z * pyvalue) :=
  match items with
  | [] => []
  | x :: r => (start, x) :: enumerate (start + 1) r
  end.

(** ** Effects

    What a run does to the outside, in order: the Streamlit calls and the
    request to the completion service. *)

Inductive effect : Type :=
| StWarning (msg : string)
| StError (msg : string)
| StErrorExn (prefix : string) (e : exn)   (* st.error(f"<prefix>{str(e)}") *)
| StSpinner (msg : string)
| StSuccess (msg : string)
| StColumns (n : nat)
| StMetric (label : string) (value : pyvalue)
| StExpander (label : string) (expanded : bool)
| StWrite (v : pyvalue)
| StInfo (msg : string)
| StMarkdownItem (i : Z) (item : pyvalue)   (* st.markdown(f"{i}. {item}") *)
| StCheckbox (label : string)
| StCodeDumps (v : pyvalue)                 (* st.code(json.dumps(v, indent=2)) *)
| StCode (s : str)
| ChatCompletionsCreate (model : string) (content : str).

(** How a piece of the script ends: with a value, with an exception on
    its way up, by [st.stop()], or at a construct outside the model. *)
Inductive result (A : Type) : Type :=
| Ok (a : A)
| Raise (e : exn)
| Stop
| Unmodelled.

Arguments Raise {A} e.
Arguments Stop {A}.
Arguments Unmodelled {A}.

Definition log := list effect.

Definition M (A : Type) : Type := log -> log * result A.

Definition ret {A} (a : A) : M A := fun s => (s, Ok a).

Definition bind {A B} (m : M A) (k : A -> M B) : M B :=
  fun s =>
    let (s1, r) := m s in
    match r with
    | Ok a => k a s1
    | Raise e => (s1, Raise e)
    | Stop => (s1, Stop)
    | Unmodelled => (s1, Unmodelled)
    end.

Notation "x <- m ;; k" := (bind m (fun x => k))
  (at level 61, m at next level, right associativity).
Notation "m ;; k" := (bind m (fun _ => k))
  (at level 61, right associativity).

Definition emit (e : effect) : M unit := fun s => (s ++ [e], Ok tt).

Definition raise {A} (e : exn) : M A := fun s => (s, Raise e).

(** [st.stop()] *)
Definition st_stop {A} : M A := fun s => (s, Stop).

(** The value of an expression that may raise. *)
Definition lift {A} (r : exn + A) : M A :=
  match r with inl e => raise e | inr a => ret a end.

Definition lift_fmt (r : fmt_result) : M str :=
  match r with
  | FmtOk s => ret s
  | FmtRaise e => raise e
  | FmtUnmodelled => fun s => (s, Unmodelled)
  end.

(** [try: m  except <class> as e: h e], for the classes [catches]
    accepts.  What [m] did before it raised stays done. *)
Definition try_except {A} (catches : exn -> bool) (m : M A) (h : exn -> M A)
  : M A :=
  fun s =>
    let (s1, r) := m s in
    match r with
    | Raise e => if catches e then h e s1 else (s1, Raise e)
    | _ => (s1, r)
    end.

Definition except_Exception (_ : exn) : bool := true.

Fixpoint for_each {A} (l : list A) (body : A -> M unit) : M unit :=
  match l with
  | [] => ret tt
  | x :: r => body x ;; for_each r body
  end.

(** ** Text extraction (lines 31-38) *)

(** What [page.extract_text()] does for one page: it raises, or returns
    [None] or a string. *)
Definition page := (exn + option str)%type.

(** An upload, seen through the PDF library: [pdf.PdfReader] raises, or
    gives a reader with its pages. *)
Record UploadedFile : Type := { PdfReader : exn + list page }.

(** ["".join(page.extract_text() or "" for page in reader.pages)] *)
Fixpoint join_pages (pages : list page) : exn + str :=
  match pages with
  | [] => inr []
  | p :: r =>
      match p with
      | inl e => inl e
      | inr t =>
          match join_pages r with
          | inl e => inl e
          | inr rest =>
              inr (match t with Some s => s | None => [] end ++ rest)
          end
      end
  end.

Definition input_pdf_text (uploaded_file : UploadedFile) : M (option str) :=
  try_except except_Exception
    (reader <- lift (PdfReader uploaded_file) ;;
     text <- lift (join_pages reader) ;;
     ret (if truthy text then Some (strip text) else None))
    (fun e => emit (StErrorExn "❌ Error reading PDF: " e) ;; ret None).

(** ** The completion call and the submit handler *)

Section Pipeline.

(** The completion service: for the content of the single user
    message, [client.chat.completions.create] raises, or returns a
    completion whose choices carry a message content each, [None]
    allowed. *)
Variable chat_completions_create : str -> exn + list (option str).

(** lines 18-29 *)
Definition get_groq_response (input_text : str) : M (option str) :=
  try_except except_Exception
    (emit (ChatCompletionsCreate "llama-3.3-70b-versatile" input_text) ;;
     choices <- lift (chat_completions_create input_text) ;;
     match choices with
     | [] => raise IndexError
     | content :: _ => ret content
     end)
    (fun e =>
       emit (StErrorExn "❌ Error getting response from Groq: " e) ;;
       ret None).

(** The body of the [try] (lines 109-143).  [show_raw] is the state of
    the checkbox. *)
Definition show_analysis (response : str) (show_raw : bool) : M unit :=
  result <- lift (Json.loads response) ;;
  emit (StSuccess "✅ Analysis Complete!") ;;
  emit (StColumns 2) ;;
  jd_match <- lift (py_get result (lit "JD Match") (PyStr (lit "N/A"))) ;;
  emit (StMetric "📊 Match Score" jd_match) ;;
  missing_keywords <-
    lift (py_get result (lit "MissingKeywords") (PyList [])) ;;
  n <- lift (py_len missing_keywords) ;;
  emit (StMetric "🔎 Missing Keywords" (PyInt n)) ;;
  emit (StExpander "📝 Profile Summary" true) ;;
  summary <- lift (py_get result (lit "ProfileSummary")
                     (PyStr (lit "No summary provided"))) ;;
  emit (StWrite summary) ;;
  emit (StExpander "🔎 Missing Keywords" false) ;;
  (if py_truthy missing_keywords then
     joined <- lift (py_join (lit ", ") missing_keywords) ;;
     emit (StWrite (PyStr joined))
   else emit (StInfo "No significant missing keywords found")) ;;
  emit (StExpander "💡 Improvement Suggestions" false) ;;
  suggestions <- lift (py_get result (lit "Suggestions") (PyList [])) ;;
  (if py_truthy suggestions then
     items <- lift (py_iter suggestions) ;;
     for_each (enumerate 1 items)
       (fun '(i, suggestion) => emit (StMarkdownItem i suggestion))
   else emit (StInfo "No specific suggestions available")) ;;
  emit (StCheckbox "🛠 Show Raw Response") ;;
  (if show_raw then emit (StCodeDumps result) else ret tt).

(** lines 107-147 *)
Definition parse_and_show (response : str) (show_raw : bool) : M unit :=
  try_except is_JSONDecodeError
    (show_analysis response show_raw)
    (fun _ =>
       emit (StError
               "❌ The response format was not as expected. Please try again.") ;;
       emit (StCode response)).

(** The block under [if submit:] (lines 85-147), for the job
    description typed, the upload if any, and the checkbox. *)
Definition submit_handler (jd : str) (uploaded_file : option UploadedFile)
           (show_raw : bool) : M unit :=
  if negb (truthy (strip jd)) then
    emit (StWarning "⚠️ Please enter a job description") ;; st_stop
  else
    match uploaded_file with
    | None => emit (StWarning "⚠️ Please upload your resume") ;; st_stop
    | Some uploaded =>
        emit (StSpinner "🔍 Analyzing your resume...") ;;
        text <- input_pdf_text uploaded ;;
        match text with
        | None =>
            emit (StError
                    "❌ Could not extract text from the PDF. Please upload a valid resume.") ;;
            st_stop
        | Some text =>
            formatted_prompt <- lift_fmt (compile_prompt text jd) ;;
            response <- get_groq_response formatted_prompt ;;
            match response with
            | None =>
                emit (StError
                        "❌ No response received from AI. Please try again.") ;;
                st_stop
            | Some response => parse_and_show response show_raw
            end
        end
    end.

End Pipeline.

(** ** The parse step on its own

    [AnalysisReport] gathers the four values the handler reads from the
    parsed object, and [parse] is the handler's [try] without the
    rendering: [json.loads] (line 109) followed by the four lookups of
    lines 116, 118, 123 and 134, under the [except] clause of line 145.
    The lemmas [show_analysis_of_report], [parse_and_show_malformed] and
    [parse_and_show_non_dict] relate its three outcomes to what the
    handler does. *)

Record AnalysisReport : Type := {
  matchPercentage : pyvalue;
  missingKeywords : pyvalue;
  profileSummary : pyvalue;
  suggestions : pyvalue
}.

Definition sum_bind {E A B} (r : E + A) (k : A -> E + B) : E + B :=
  match r with inl e => inl e | inr a => k a end.

Definition extract_report (result : pyvalue) : exn + AnalysisReport :=
  sum_bind (py_get result (lit "JD Match") (PyStr (lit "N/A")))
    (fun jd_match =>
  sum_bind (py_get result (lit "MissingKeywords") (PyList []))
    (fun missing_keywords =>
  sum_bind (py_get result (lit "ProfileSummary")
              (PyStr (lit "No summary provided")))
    (fun summary =>
  sum_bind (py_get result (lit "Suggestions") (PyList []))
    (fun suggestions =>
  inr {| matchPercentage := jd_match;
         missingKeywords := missing_keywords;
         profileSummary := summary;
         suggestions := suggestions |})))).

Inductive parse_result : Type :=
| Report (r : AnalysisReport)
| MalformedResponse (rawText : str)
| Fault (e : exn).

Definition parse (rawText : str) : parse_result :=
  match sum_bind (Json.loads rawText) extract_report with
  | inr r => Report r
  | inl e => if is_JSONDecodeError e then MalformedResponse rawText
             else Fault e
  end.

(** The report of a dict: each key, or its default. *)
Definition get_or (d : dict) (k : str) (dflt : pyvalue) : pyvalue :=
  match dict_lookup d k with Some v => v | None => dflt end.

Definition report_of (d : dict) : AnalysisReport :=
  {| matchPercentage := get_or d (lit "JD Match") (PyStr (lit "N/A"));
     missingKeywords := get_or d (lit "MissingKeywords") (PyList []);
     profileSummary :=
       get_or d (lit "ProfileSummary") (PyStr (lit "No summary provided"));
     suggestions := get_or d (lit "Suggestions") (PyList []) |}.

(** What the handler shows of a report, in the order of lines 114-139. *)
Definition show_report (r : AnalysisReport) : M unit :=
  emit (StColumns 2) ;;
  emit (StMetric "📊 Match Score" (matchPercentage r)) ;;
  n <- lift (py_len (missingKeywords r)) ;;
  emit (StMetric "🔎 Missing Keywords" (PyInt n)) ;;
  emit (StExpander "📝 Profile Summary" true) ;;
  emit (StWrite (profileSummary r)) ;;
  emit (StExpander "🔎 Missing Keywords" false) ;;
  (if py_truthy (missingKeywords r) then
     joined <- lift (py_join (lit ", ") (missingKeywords r)) ;;
     emit (StWrite (PyStr joined))
   else emit (StInfo "No significant missing keywords found")) ;;
  emit (StExpander "💡 Improvement Suggestions" false) ;;
  (if py_truthy (suggestions r) then
     items <- lift (py_iter (suggestions r)) ;;
     for_each (enumerate 1 items)
       (fun '(i, suggestion) => emit (StMarkdownItem i suggestion))
   else emit (StInfo "No specific suggestions available")).

(** The compiled prompt is made of three fixed stretches around the two
    inputs: the template with its fields cut out and its doubled braces
    single. *)
Definition prompt_head : str := litq "
Act as an ATS (Application Tracking System) specializing in technical roles (Software Engineering, Data Science, Data Analysis, Big Data Engineering).
Analyze the following:

Resume: ".

Definition prompt_middle : str := litq "
Job Description: ".

Definition prompt_tail : str := litq "

**STRICT INSTRUCTIONS:**  
- Respond **only** in valid JSON format (no extra text).  
- Ensure the response starts with `{` and ends with `}`.  
- If no data, return an empty list `[]` or `'N/A'`.  

Return the response in **this exact JSON structure**:
{
  'JD Match': 'X%',
  'MissingKeywords': ['keyword1', 'keyword2', ...],
  'ProfileSummary': 'summary text',
  'Suggestions': ['suggestion1', 'suggestion2', ...]
}
".

(** A computation is framed when it only appends to the log it is given:
    started on [s], it adds what it adds to the empty log and ends the
    same way. *)
Definition framed {A} (m : M A) : Prop :=
  forall s, m s = (s ++ fst (m []), snd (m [])).

(** The messages of the handler that the statements below name. *)
Definition msg_success : string := "✅ Analysis Complete!".
Definition msg_no_text : string :=
  "❌ Could not extract text from the PDF. Please upload a valid resume.".
Definition msg_no_response : string :=
  "❌ No response received from AI. Please try again.".
Definition msg_groq_error : string := "❌ Error getting response from Groq: ".
Definition groq_model : string := "llama-3.3-70b-versatile".

(** The responses of the scenarios. *)
Definition scenario_1 : str := litq
  "{'JD Match': '85%', 'MissingKeywords': ['Kubernetes','gRPC'], 'ProfileSummary': 'Strong backend profile.', 'Suggestions': ['Add cloud certs']}".

Definition scenario_2 : str := litq "{'JD Match': '40%'}".


(** An upload whose only page holds the text [cv]. *)
Definition cv_resume : UploadedFile :=
  {| PdfReader := inr [inr (Some (lit "cv"))] |}.

(** An upload whose only page holds one space. *)
Definition blank_resume : UploadedFile :=
  {| PdfReader := inr [inr (Some (lit " "))] |}.

(** The completion gave nothing to parse: the call raised, the list of
    choices is empty, or the first choice has no content. *)
Definition no_usable_choice (r : exn + list (option str)) : bool :=
  match r with
  | inl _ => true
  | inr [] => true
  | inr (None :: _) => true
  | inr (Some _ :: _) => false
  end.

Definition msg_spinner : string := "🔍 Analyzing your resume...".
Definition lbl_match_score : string := "📊 Match Score".

(** ** Vocabulary of the further properties *)

Definition msg_need_jd : string := "⚠️ Please enter a job description".
Definition msg_need_upload : string := "⚠️ Please upload your resume".
Definition msg_pdf_error : string := "❌ Error reading PDF: ".

(** A computation only appends to the log, and only effects that [P]
    accepts. *)
Definition emits_only {A} (P : effect -> bool) (m : M A) : Prop :=
  forall s, exists l, fst (m s) = s ++ l /\ forallb P l = true.

Definition is_request (e : effect) : bool :=
  match e with ChatCompletionsCreate _ _ => true | _ => false end.

Definition not_request (e : effect) : bool := negb (is_request e).

Definition is_pdf_error (e : effect) : bool :=
  match e with
  | StErrorExn prefix _ => if string_dec prefix msg_pdf_error then true
                           else false
  | _ => false
  end.

(** The text of a page, [None] counting as the empty string. *)
Definition page_text (t : option str) : str :=
  match t with Some s => s | None => [] end.

(** What the handler needs of the two list fields in order to show
    them: the keywords must have a length and, when there are any, be
    strings that [join] accepts; the suggestions must be empty in the
    sense of [bool], or iterable. *)
Definition is_str (v : pyvalue) : bool :=
  match v with PyStr _ => true | _ => false end.

Definition keywords_ok (v : pyvalue) : bool :=
  match v with
  | PyStr _ | PyDict _ => true
  | PyList l => forallb is_str l
  | PyNone | PyBool _ | PyInt _ | PyFloat _ => false
  end.











Definition is_groq_error (e : effect) : bool :=
  match e with
  | StErrorExn prefix _ => if string_dec prefix msg_groq_error then true
                           else false
  | _ => false
  end.

(** * Properties *)

Unset Implicit Arguments.

(** ** Strings *)

Lemma eqb_eq (a b : str) : eqb a b = true <-> a = b.
Proof.
  unfold eqb. destruct (list_eq_dec N.eq_dec a b); split; congruence.
Qed.

Lemma lstrip_all_space (t : str) :
  forallb isspace t = true -> lstrip t = [].
Proof.
  induction t as [|c t IH]; simpl; [reflexivity|].
  intros H. apply andb_true_iff in H as [Hc Ht].
  rewrite Hc. now apply IH.
Qed.

Lemma strip_all_space (t : str) :
  forallb isspace t = true -> strip t = [].
Proof.
  intros H. unfold strip. now rewrite (lstrip_all_space t H).
Qed.

Lemma truthy_nonempty (t : str) : t <> [] -> truthy t = true.
Proof. destruct t; [congruence | reflexivity]. Qed.

(** ** Computations only append to the log *)

Lemma framed_ret {A} (a : A) : framed (ret a).
Proof. intros s. unfold ret. simpl. now rewrite app_nil_r. Qed.

Lemma framed_emit (e : effect) : framed (emit e).
Proof. intros s. reflexivity. Qed.

Lemma framed_raise {A} (e : exn) : framed (@raise A e).
Proof. intros s. unfold raise. simpl. now rewrite app_nil_r. Qed.

Lemma framed_stop {A} : framed (@st_stop A).
Proof. intros s. unfold st_stop. simpl. now rewrite app_nil_r. Qed.

Lemma framed_lift {A} (r : exn + A) : framed (lift r).
Proof. destruct r; [apply framed_raise | apply framed_ret]. Qed.

Lemma framed_lift_fmt (r : fmt_result) : framed (lift_fmt r).
Proof.
  destruct r; [apply framed_ret | apply framed_raise |].
  intros s. simpl. now rewrite app_nil_r.
Qed.

Lemma framed_bind {A B} (m : M A) (k : A -> M B) :
  framed m -> (forall a, framed (k a)) -> framed (bind m k).
Proof.
  intros Hm Hk s. unfold bind. rewrite (Hm s).
  destruct (m []) as [l r]. simpl.
  destruct r as [a| | |]; simpl; try reflexivity.
  rewrite (Hk a (s ++ l)), (Hk a l). simpl. now rewrite app_assoc.
Qed.

Lemma framed_try_except {A} (c : exn -> bool) (m : M A) (h : exn -> M A) :
  framed m -> (forall e, framed (h e)) -> framed (try_except c m h).
Proof.
  intros Hm Hh s. unfold try_except. rewrite (Hm s).
  destruct (m []) as [l r]. simpl.
  destruct r as [a|e| |]; simpl; try reflexivity.
  destruct (c e); [|reflexivity].
  rewrite (Hh e (s ++ l)), (Hh e l). simpl. now rewrite app_assoc.
Qed.

Lemma framed_for_each {A} (l : list A) (body : A -> M unit) :
  (forall a, framed (body a)) -> framed (for_each l body).
Proof.
  intros Hb. induction l as [|x l IH]; simpl.
  - apply framed_ret.
  - apply framed_bind; [apply Hb | intros _; apply IH].
Qed.

Lemma framed_if {A} (b : bool) (m1 m2 : M A) :
  framed m1 -> framed m2 -> framed (if b then m1 else m2).
Proof. now destruct b. Qed.

Create HintDb framed.
#[local] Hint Resolve framed_ret framed_emit framed_raise framed_stop
  framed_lift framed_lift_fmt framed_for_each framed_if : framed.

Ltac framed_tac :=
  repeat first
    [ apply framed_bind; [| intros]
    | apply framed_try_except; [| intros]
    | apply framed_for_each; intros
    | apply framed_if
    | match goal with |- framed (let '(_, _) := ?p in _) => destruct p end
    | match goal with |- framed (match ?x with _ => _ end) => destruct x end
    | solve [auto with framed] ].

Lemma framed_show_analysis (response : str) (show_raw : bool) :
  framed (show_analysis response show_raw).
Proof. unfold show_analysis. framed_tac. Qed.

Lemma framed_parse_and_show (response : str) (show_raw : bool) :
  framed (parse_and_show response show_raw).
Proof.
  unfold parse_and_show.
  apply framed_try_except; [apply framed_show_analysis | intros].
  framed_tac.
Qed.

(** ** Prompt compilation *)

(** The compiled prompt, for any two inputs: the inputs are copied, not
    scanned, and the doubled braces of the template come out single. *)
Lemma compile_prompt_eq (text jd : str) :
  compile_prompt text jd =
  FmtOk (prompt_head ++ text ++ prompt_middle ++ jd ++ prompt_tail).
Proof. vm_compute. reflexivity. Qed.

(** C7: for all non-empty resume text and job description,
    [input_prompt.format(text=text, jd=jd)] does not raise, whatever
    braces the two strings hold: the result is the fixed text around the
    two inputs, copied as they are, and the braces of the JSON skeleton
    are in it as literal single braces ([prompt_tail]). *)
Theorem C7_compile_prompt_never_raises (text jd : str) :
  text <> [] -> jd <> [] ->
  compile_prompt text jd =
  FmtOk (prompt_head ++ text ++ prompt_middle ++ jd ++ prompt_tail).
Proof. intros _ _. apply compile_prompt_eq. Qed.

Lemma C7_witness_braces :
  lit "{skills}" <> [] /\ lit "}{" <> [] /\
  compile_prompt (lit "{skills}") (lit "}{") =
  FmtOk (prompt_head ++ lit "{skills}" ++ prompt_middle ++ lit "}{"
           ++ prompt_tail).
Proof.
  split; [discriminate|]. split; [discriminate|].
  apply (C7_compile_prompt_never_raises (lit "{skills}") (lit "}{"));
    discriminate.
Defined.

(** ** The parse step *)



Lemma parse_of_dict (rawText : str) (d : dict) :
  Json.loads rawText = inr (PyDict d) -> parse rawText = Report (report_of d).
Proof. intros H. unfold parse. now rewrite H. Qed.

Lemma py_get_non_dict (v : pyvalue) (k : str) (dflt : pyvalue) :
  (forall d, v <> PyDict d) -> py_get v k dflt = inl AttributeError.
Proof. intros H. destruct v; try reflexivity. now destruct (H items). Qed.

Lemma parse_of_non_dict (rawText : str) (v : pyvalue) :
  Json.loads rawText = inr v -> (forall d, v <> PyDict d) ->
  parse rawText = Fault AttributeError.
Proof.
  intros H Hv. unfold parse. rewrite H. simpl.
  unfold extract_report. now rewrite (py_get_non_dict _ _ _ Hv).
Qed.

(** On a dict, the handler shows the report of [parse], field by field. *)
Lemma show_analysis_of_report (rawText : str) (d : dict) (show_raw : bool)
      (s : log) :
  Json.loads rawText = inr (PyDict d) ->
  show_analysis rawText show_raw s =
  (emit (StSuccess msg_success) ;;
   show_report (report_of d) ;;
   emit (StCheckbox "🛠 Show Raw Response") ;;
   (if show_raw then emit (StCodeDumps (PyDict d)) else ret tt)) s.
Proof.
  intros H. unfold show_analysis, show_report. rewrite H.
  unfold bind, lift, emit, ret, report_of, get_or. simpl.
  destruct (py_len _); simpl; [reflexivity|].
  destruct (py_truthy _); simpl.
  - destruct (py_join _ _); simpl; [reflexivity|].
    destruct (py_truthy _); simpl; [|reflexivity].
    destruct (py_iter _); simpl; [reflexivity|].
    now destruct (for_each _ _ _) as [? []].
  - destruct (py_truthy _); simpl; [|reflexivity].
    destruct (py_iter _); simpl; [reflexivity|].
    now destruct (for_each _ _ _) as [? []].
Qed.


(** JSON that is not an object: [result.get] raises [AttributeError],
    which the [except] clause does not catch. *)
Lemma parse_and_show_non_dict (rawText : str) (v : pyvalue) (show_raw : bool)
      (s : log) :
  Json.loads rawText = inr v -> (forall d, v <> PyDict d) ->
  parse_and_show rawText show_raw s =
  (s ++ [StSuccess msg_success; StColumns 2], Raise AttributeError).
Proof.
  intros H Hv. unfold parse_and_show, try_except, show_analysis, bind.
  rewrite H. simpl. rewrite (py_get_non_dict _ _ _ Hv). simpl.
  now rewrite <- app_assoc.
Qed.

(** The rendering asks more of a value than the report does: a number
    under ["MissingKeywords"] is in the report as it is, and [len]
    refuses it when the handler comes to show the count. *)
Example number_as_keywords :
  parse (litq "{'MissingKeywords': 5}") =
  Report {| matchPercentage := PyStr (lit "N/A");
            missingKeywords := PyInt 5;
            profileSummary := PyStr (lit "No summary provided");
            suggestions := PyList [] |}
  /\ parse_and_show (litq "{'MissingKeywords': 5}") false [] =
     ([ StSuccess msg_success; StColumns 2;
        StMetric lbl_match_score (PyStr (lit "N/A")) ],
      Raise TypeError).
Proof. split; vm_compute; reflexivity. Qed.

(** C3: the complete response of scenario 1 parses to the report with
    exactly its four values, the two lists in the order of the text; the
    handler shows them in that order and ends normally. *)
Theorem C3_scenario_1_report :
  parse scenario_1 =
  Report {| matchPercentage := PyStr (lit "85%");
            missingKeywords :=
              PyList [PyStr (lit "Kubernetes"); PyStr (lit "gRPC")];
            profileSummary := PyStr (lit "Strong backend profile.");
            suggestions := PyList [PyStr (lit "Add cloud certs")] |}
  /\ parse_and_show scenario_1 false [] =
     ([ StSuccess msg_success;
        StColumns 2;
        StMetric "📊 Match Score" (PyStr (lit "85%"));
        StMetric "🔎 Missing Keywords" (PyInt 2);
        StExpander "📝 Profile Summary" true;
        StWrite (PyStr (lit "Strong backend profile."));
        StExpander "🔎 Missing Keywords" false;
        StWrite (PyStr (lit "Kubernetes, gRPC"));
        StExpander "💡 Improvement Suggestions" false;
        StMarkdownItem 1 (PyStr (lit "Add cloud certs"));
        StCheckbox "🛠 Show Raw Response" ],
      Ok tt).
Proof. split; vm_compute; reflexivity. Qed.



(** C2: a JSON object that lacks some of the four keys still parses to
    a report, and each missing key has its default there: ["N/A"], the
    empty list, ["No summary provided"], the empty list.  Scenario 2
    gives the report with ["40%"] and the three defaults, which the
    handler shows without error. *)
Theorem C2_missing_keys_take_defaults :
  (forall (rawText : str) (d : dict),
      Json.loads rawText = inr (PyDict d) ->
      exists r,
        parse rawText = Report r /\
        (dict_lookup d (lit "JD Match") = None ->
         matchPercentage r = PyStr (lit "N/A")) /\
        (dict_lookup d (lit "MissingKeywords") = None ->
         missingKeywords r = PyList []) /\
        (dict_lookup d (lit "ProfileSummary") = None ->
         profileSummary r = PyStr (lit "No summary provided")) /\
        (dict_lookup d (lit "Suggestions") = None ->
         suggestions r = PyList []))
  /\ parse scenario_2 =
     Report {| matchPercentage := PyStr (lit "40%");
               missingKeywords := PyList [];
               profileSummary := PyStr (lit "No summary provided");
               suggestions := PyList [] |}
  /\ parse_and_show scenario_2 false [] =
     ([ StSuccess msg_success;
        StColumns 2;
        StMetric "📊 Match Score" (PyStr (lit "40%"));
        StMetric "🔎 Missing Keywords" (PyInt 0);
        StExpander "📝 Profile Summary" true;
        StWrite (PyStr (lit "No summary provided"));
        StExpander "🔎 Missing Keywords" false;
        StInfo "No significant missing keywords found";
        StExpander "💡 Improvement Suggestions" false;
        StInfo "No specific suggestions available";
        StCheckbox "🛠 Show Raw Response" ],
      Ok tt).
Proof.
  split; [| split; vm_compute; reflexivity].
  intros rawText d H. exists (report_of d).
  split; [exact (parse_of_dict _ _ H)|].
  unfold report_of, get_or; simpl.
  repeat split; intros Hk; now rewrite Hk.
Qed.

Lemma C2_witness_scenario_2 :
  Json.loads scenario_2 = inr (PyDict [(lit "JD Match", PyStr (lit "40%"))])
  /\ exists r,
      parse scenario_2 = Report r /\
      (dict_lookup [(lit "JD Match", PyStr (lit "40%"))] (lit "JD Match")
       = None -> matchPercentage r = PyStr (lit "N/A")) /\
      (dict_lookup [(lit "JD Match", PyStr (lit "40%"))]
         (lit "MissingKeywords") = None ->
       missingKeywords r = PyList []) /\
      (dict_lookup [(lit "JD Match", PyStr (lit "40%"))]
         (lit "ProfileSummary") = None ->
       profileSummary r = PyStr (lit "No summary provided")) /\
      (dict_lookup [(lit "JD Match", PyStr (lit "40%"))] (lit "Suggestions")
       = None -> suggestions r = PyList []).
Proof.
  split; [reflexivity|].
  apply (proj1 C2_missing_keys_take_defaults scenario_2
           [(lit "JD Match", PyStr (lit "40%"))]).
  reflexivity.
Defined.

(** On a dict the handler first shows the success message and, as match
    score, the value the report holds, whatever its type. *)
Lemma parse_and_show_dict_shows_match (rawText : str) (d : dict)
      (show_raw : bool) (s : log) :
  Json.loads rawText = inr (PyDict d) ->
  exists rest o,
    parse_and_show rawText show_raw s =
    (s ++ StSuccess msg_success :: StColumns 2
       :: StMetric lbl_match_score (matchPercentage (report_of d)) :: rest,
     o).
Proof.
  intros H. rewrite (framed_parse_and_show rawText show_raw s).
  unfold parse_and_show, try_except.
  rewrite (show_analysis_of_report rawText d show_raw [] H).
  unfold show_report, bind, emit, lift, ret, raise. simpl.
  repeat match goal with
    | |- context [py_len ?x] => destruct (py_len x); simpl
    | |- context [py_join ?a ?b] => destruct (py_join a b); simpl
    | |- context [py_iter ?x] => destruct (py_iter x); simpl
    | |- context [for_each ?l ?b ?t] =>
        rewrite (framed_for_each l b
                   ltac:(intros [? ?]; apply framed_emit) t);
        destruct (for_each l b []) as [? []]; simpl
    | |- context [if ?b then _ else _] => destruct b; simpl
    end;
    do 2 eexists; reflexivity.
Qed.

(** C9: on a JSON object the report holds, for each of the four keys
    that is present, the very value found under the key, whatever its
    type; the value under ["JD Match"] is what the handler passes to the
    match score metric. *)
Theorem C9_present_fields_pass_through (rawText : str) (d : dict) :
  Json.loads rawText = inr (PyDict d) ->
  exists r,
    parse rawText = Report r /\
    (forall v, dict_lookup d (lit "JD Match") = Some v ->
               matchPercentage r = v) /\
    (forall v, dict_lookup d (lit "MissingKeywords") = Some v ->
               missingKeywords r = v) /\
    (forall v, dict_lookup d (lit "ProfileSummary") = Some v ->
               profileSummary r = v) /\
    (forall v, dict_lookup d (lit "Suggestions") = Some v ->
               suggestions r = v) /\
    (forall show_raw s, exists rest o,
        parse_and_show rawText show_raw s =
        (s ++ StSuccess msg_success :: StColumns 2
           :: StMetric lbl_match_score (matchPercentage r) :: rest, o)).
Proof.
  intros H. exists (report_of d).
  split; [exact (parse_of_dict _ _ H)|].
  unfold report_of at 1 2 3 4, get_or; simpl.
  do 4 (split; [intros v Hv; now rewrite Hv|]).
  intros show_raw s. now apply parse_and_show_dict_shows_match.
Qed.

Lemma C9_witness_number_as_match :
  Json.loads (litq "{'JD Match': 85}") =
  inr (PyDict [(lit "JD Match", PyInt 85)]) /\
  exists r,
    parse (litq "{'JD Match': 85}") = Report r /\
    (forall v, dict_lookup [(lit "JD Match", PyInt 85)] (lit "JD Match")
               = Some v -> matchPercentage r = v) /\
    (forall v, dict_lookup [(lit "JD Match", PyInt 85)]
                 (lit "MissingKeywords") = Some v ->
               missingKeywords r = v) /\
    (forall v, dict_lookup [(lit "JD Match", PyInt 85)]
                 (lit "ProfileSummary") = Some v ->
               profileSummary r = v) /\
    (forall v, dict_lookup [(lit "JD Match", PyInt 85)] (lit "Suggestions")
               = Some v -> suggestions r = v) /\
    (forall show_raw s, exists rest o,
        parse_and_show (litq "{'JD Match': 85}") show_raw s =
        (s ++ StSuccess msg_success :: StColumns 2
           :: StMetric lbl_match_score (matchPercentage r) :: rest, o)).
Proof.
  split; [reflexivity|].
  apply (C9_present_fields_pass_through (litq "{'JD Match': 85}")
           [(lit "JD Match", PyInt 85)]).
  reflexivity.
Defined.

(** C8: a raw text that is a JSON object has one report, so parsing it
    again gives an equal report; and the handler run a second time, on
    the log the first run left, ends the same way and shows the same
    things again. *)
Theorem C8_parse_twice_same_report (rawText : str) (d : dict) :
  Json.loads rawText = inr (PyDict d) ->
  exists r,
    parse rawText = Report r /\
    (forall r', parse rawText = Report r' -> r' = r) /\
    (forall show_raw s,
        let first := parse_and_show rawText show_raw s in
        let second := parse_and_show rawText show_raw (fst first) in
        snd second = snd first /\
        exists shown,
          fst first = s ++ shown /\ fst second = fst first ++ shown).
Proof.
  intros H. exists (report_of d).
  split; [exact (parse_of_dict _ _ H)|]. split.
  - intros r' Hr'. rewrite (parse_of_dict _ _ H) in Hr'. congruence.
  - intros show_raw s. cbv zeta.
    rewrite (framed_parse_and_show rawText show_raw
               (fst (parse_and_show rawText show_raw s))).
    rewrite (framed_parse_and_show rawText show_raw s). simpl.
    split; [reflexivity|].
    exists (fst (parse_and_show rawText show_raw [])). now split.
Qed.

Lemma C8_witness_scenario_2 :
  Json.loads scenario_2 = inr (PyDict [(lit "JD Match", PyStr (lit "40%"))])
  /\ exists r,
    parse scenario_2 = Report r /\
    (forall r', parse scenario_2 = Report r' -> r' = r) /\
    (forall show_raw s,
        let first := parse_and_show scenario_2 show_raw s in
        let second := parse_and_show scenario_2 show_raw (fst first) in
        snd second = snd first /\
        exists shown,
          fst first = s ++ shown /\ fst second = fst first ++ shown).
Proof.
  split; [reflexivity|].
  apply (C8_parse_twice_same_report scenario_2
           [(lit "JD Match", PyStr (lit "40%"))]).
  reflexivity.
Defined.

(** ** The pipeline *)

Lemma input_pdf_text_pages (up : UploadedFile) (pages : list page) (t : str)
      (s : log) :
  PdfReader up = inr pages -> join_pages pages = inr t ->
  input_pdf_text up s =
  (s, Ok (if truthy t then Some (strip t) else None)).
Proof.
  intros Hr Hj. unfold input_pdf_text, try_except, bind, lift.
  rewrite Hr. simpl. now rewrite Hj.
Qed.

Lemma bind_emit {B} (e : effect) (k : unit -> M B) (s : log) :
  bind (emit e) k s = k tt (s ++ [e]).
Proof. reflexivity. Qed.

Lemma bind_ok {A B} (m : M A) (k : A -> M B) (s s1 : log) (a : A) :
  m s = (s1, Ok a) -> bind m k s = k a s1.
Proof. intros H. unfold bind. now rewrite H. Qed.

Section PipelineFacts.

Variable create : str -> exn + list (option str).
Variable jd : str.
Variable up : UploadedFile.
Variable show_raw : bool.
Variable pages : list page.
Variable t : str.

Hypothesis jd_given : truthy (strip jd) = true.
Hypothesis reader_ok : PdfReader up = inr pages.
Hypothesis pages_ok : join_pages pages = inr t.

(** The prompt the handler compiles once the text is extracted. *)
Let prompt : str :=
  prompt_head ++ strip t ++ prompt_middle ++ jd ++ prompt_tail.

(** Pages without any text: the handler reports it and stops; nothing
    is sent to the completion service. *)
Lemma submit_handler_no_text :
  t = [] ->
  submit_handler create jd (Some up) show_raw [] =
  ([StSpinner msg_spinner; StError msg_no_text], Stop).
Proof.
  intros Ht. unfold submit_handler. rewrite jd_given.
  change (negb true) with false. cbv iota.
  rewrite bind_emit.
  rewrite (bind_ok _ _ _ _ _
             (input_pdf_text_pages up pages t _ reader_ok pages_ok)).
  rewrite Ht. reflexivity.
Qed.

(** With some text, even blank, the handler goes on to the completion
    call. *)
Lemma submit_handler_with_text :
  truthy t = true ->
  submit_handler create jd (Some up) show_raw [] =
  (response <- get_groq_response create prompt ;;
   match response with
   | None => emit (StError msg_no_response) ;; st_stop
   | Some response => parse_and_show response show_raw
   end) [StSpinner msg_spinner].
Proof.
  intros Ht. unfold submit_handler. rewrite jd_given.
  change (negb true) with false. cbv iota.
  rewrite bind_emit.
  rewrite (bind_ok _ _ _ _ _
             (input_pdf_text_pages up pages t _ reader_ok pages_ok)).
  rewrite Ht. cbv iota. rewrite compile_prompt_eq.
  reflexivity.
Qed.

(** With a first choice that has a content, the handler parses and
    shows that content. *)
Lemma submit_handler_with_response (response : str)
      (choices : list (option str)) :
  truthy t = true ->
  create prompt = inr (Some response :: choices) ->
  submit_handler create jd (Some up) show_raw [] =
  parse_and_show response show_raw
    [StSpinner msg_spinner; ChatCompletionsCreate groq_model prompt].
Proof.
  intros Ht Hc. rewrite (submit_handler_with_text Ht).
  unfold get_groq_response, try_except, bind, emit, lift, ret, raise.
  simpl. now rewrite Hc.
Qed.

Lemma submit_handler_reaches_completion :
  truthy t = true ->
  exists rest o,
    submit_handler create jd (Some up) show_raw [] =
    (StSpinner msg_spinner :: ChatCompletionsCreate groq_model prompt
       :: rest, o).
Proof.
  intros Ht. rewrite (submit_handler_with_text Ht).
  unfold get_groq_response, try_except, bind, emit, lift, ret, raise.
  simpl.
  destruct (create prompt) as [e | [| [response|] choices]]; simpl;
    try (do 2 eexists; reflexivity).
  rewrite (framed_parse_and_show response show_raw _). simpl.
  do 2 eexists; reflexivity.
Qed.

Lemma submit_handler_no_choice :
  truthy t = true ->
  no_usable_choice (create prompt) = true ->
  exists shown,
    submit_handler create jd (Some up) show_raw [] =
    (StSpinner msg_spinner :: ChatCompletionsCreate groq_model prompt
       :: shown ++ [StError msg_no_response], Stop)
    /\ forall ev, In ev shown -> exists e, ev = StErrorExn msg_groq_error e.
Proof.
  intros Ht Hc. rewrite (submit_handler_with_text Ht).
  unfold get_groq_response, try_except, bind, emit, lift, ret, raise.
  simpl.
  destruct (create prompt) as [e | [| [response|] choices]]; simpl;
    try discriminate.
  - exists [StErrorExn msg_groq_error e]. split; [reflexivity|].
    intros ev [<- | []]. now exists e.
  - exists [StErrorExn msg_groq_error IndexError]. split; [reflexivity|].
    intros ev [<- | []]. now exists IndexError.
  - exists []. split; [reflexivity|]. intros ev [].
Qed.

End PipelineFacts.

(** An upload the PDF library cannot read: the handler reports it and
    stops as well. *)
Lemma submit_handler_unreadable (create : str -> exn + list (option str))
      (jd : str) (up : UploadedFile) (show_raw : bool) (e : exn) :
  truthy (strip jd) = true -> PdfReader up = inl e ->
  submit_handler create jd (Some up) show_raw [] =
  ([StSpinner msg_spinner; StErrorExn "❌ Error reading PDF: " e;
    StError msg_no_text], Stop).
Proof.
  intros Hjd Hr. unfold submit_handler. rewrite Hjd.
  change (negb true) with false. cbv iota. rewrite bind_emit.
  unfold input_pdf_text, try_except, bind, lift. now rewrite Hr.
Qed.

(** C1, on inputs where the code departs from it: a JSON array, a bare
    JSON string and a bare JSON number are decoded without error, so the
    [except] clause is not reached; the first [result.get] then raises
    [AttributeError], which nothing catches.  The handler has shown the
    success message by then and never shows the raw text. *)
Theorem C1_non_object_json_uncaught :
  parse (lit "[]") = Fault AttributeError /\
  parse (litq "'N/A'") = Fault AttributeError /\
  parse (lit "42") = Fault AttributeError /\
  (forall show_raw,
      parse_and_show (lit "[]") show_raw [] =
      ([StSuccess msg_success; StColumns 2], Raise AttributeError)) /\
  (forall show_raw,
      submit_handler (fun _ => inr [Some (lit "[]")]) (lit "dev")
        (Some cv_resume) show_raw [] =
      ([ StSpinner msg_spinner;
         ChatCompletionsCreate groq_model
           (prompt_head ++ lit "cv" ++ prompt_middle ++ lit "dev"
              ++ prompt_tail);
         StSuccess msg_success;
         StColumns 2 ],
       Raise AttributeError)).
Proof.
  do 3 (split; [vm_compute; reflexivity|]). split.
  - intros show_raw.
    apply parse_and_show_non_dict with (v := PyList []);
      [reflexivity | discriminate].
  - intros show_raw.
    rewrite (submit_handler_with_response
               (fun _ => inr [Some (lit "[]")]) (lit "dev") cv_resume
               show_raw [inr (Some (lit "cv"))] (lit "cv")
               eq_refl eq_refl eq_refl (lit "[]") [] eq_refl eq_refl).
    apply parse_and_show_non_dict with (v := PyList []);
      [reflexivity | discriminate].
Qed.

(** C6: when the completion call raises, returns no choice, or returns
    a first choice without content, the handler shows the "no response"
    error and stops by [st.stop()], not by an exception; apart from the
    error of the call itself nothing else is shown, so no analysis is
    displayed. *)
Theorem C6_completion_failure_halts
        (create : str -> exn + list (option str)) (jd : str)
        (up : UploadedFile) (show_raw : bool) (pages : list page) (t : str) :
  truthy (strip jd) = true ->
  PdfReader up = inr pages ->
  join_pages pages = inr t ->
  truthy t = true ->
  no_usable_choice
    (create (prompt_head ++ strip t ++ prompt_middle ++ jd ++ prompt_tail))
  = true ->
  exists shown,
    submit_handler create jd (Some up) show_raw [] =
    (StSpinner msg_spinner
       :: ChatCompletionsCreate groq_model
            (prompt_head ++ strip t ++ prompt_middle ++ jd ++ prompt_tail)
       :: shown ++ [StError msg_no_response],
     Stop)
    /\ forall ev, In ev shown -> exists e, ev = StErrorExn msg_groq_error e.
Proof.
  intros Hjd Hr Hp Ht Hc.
  exact (submit_handler_no_choice create jd up show_raw pages t
           Hjd Hr Hp Ht Hc).
Qed.

Lemma C6_witness_no_choices :
  exists shown,
    submit_handler (fun _ => inr []) (lit "dev")
      (Some cv_resume) false [] =
    (StSpinner msg_spinner
       :: ChatCompletionsCreate groq_model
            (prompt_head ++ strip (lit "cv") ++ prompt_middle ++ lit "dev"
               ++ prompt_tail)
       :: shown ++ [StError msg_no_response],
     Stop)
    /\ forall ev, In ev shown -> exists e, ev = StErrorExn msg_groq_error e.
Proof.
  apply (C6_completion_failure_halts (fun _ => inr []) (lit "dev")
           cv_resume false [inr (Some (lit "cv"))] (lit "cv"));
    reflexivity.
Defined.

(** C5, on an input where the code departs from it: the only page of
    the upload holds a single space.  The text is tested before it is
    stripped, so [input_pdf_text] returns the empty string, not [None];
    the handler does not stop and sends the prompt compiled from the
    empty resume text to the completion service. *)
Theorem C5_blank_resume_reaches_completion
        (create : str -> exn + list (option str)) :
  input_pdf_text blank_resume [] = ([], Ok (Some [])) /\
  exists rest o,
    submit_handler create (lit "dev") (Some blank_resume) false [] =
    (StSpinner msg_spinner
       :: ChatCompletionsCreate groq_model
            (prompt_head ++ [] ++ prompt_middle ++ lit "dev" ++ prompt_tail)
       :: rest, o).
Proof.
  split; [reflexivity|].
  apply (submit_handler_reaches_completion create (lit "dev") blank_resume
           false [inr (Some (lit " "))] (lit " "));
    reflexivity.
Qed.

(** C10: when the pages give a text that is not empty but all white
    space, [input_pdf_text] returns the empty string and not [None], and
    shows nothing; the handler, given a job description, then compiles
    the prompt with the empty resume text and calls the completion
    service with it instead of stopping. *)
Theorem C10_blank_text_is_not_refused
        (create : str -> exn + list (option str)) (jd : str)
        (up : UploadedFile) (show_raw : bool) (pages : list page) (t : str) :
  PdfReader up = inr pages ->
  join_pages pages = inr t ->
  t <> [] ->
  forallb isspace t = true ->
  truthy (strip jd) = true ->
  input_pdf_text up [] = ([], Ok (Some [])) /\
  compile_prompt [] jd =
  FmtOk (prompt_head ++ [] ++ prompt_middle ++ jd ++ prompt_tail) /\
  exists rest o,
    submit_handler create jd (Some up) show_raw [] =
    (StSpinner msg_spinner
       :: ChatCompletionsCreate groq_model
            (prompt_head ++ [] ++ prompt_middle ++ jd ++ prompt_tail)
       :: rest, o).
Proof.
  intros Hr Hp Hne Hsp Hjd.
  pose proof (truthy_nonempty t Hne) as Ht.
  pose proof (strip_all_space t Hsp) as Hs.
  split; [| split].
  - rewrite (input_pdf_text_pages up pages t [] Hr Hp), Ht. now rewrite Hs.
  - apply compile_prompt_eq.
  - rewrite <- Hs.
    exact (submit_handler_reaches_completion create jd up show_raw pages t
             Hjd Hr Hp Ht).
Qed.

Lemma C10_witness_spaces_and_newline :
  input_pdf_text
    {| PdfReader := inr [inr (Some (lit "  ")); inr None;
                         inr (Some [10%N])] |} [] = ([], Ok (Some [])) /\
  compile_prompt [] (lit "dev") =
  FmtOk (prompt_head ++ [] ++ prompt_middle ++ lit "dev" ++ prompt_tail) /\
  exists rest o,
    submit_handler (fun _ => inr [Some scenario_2]) (lit "dev")
      (Some {| PdfReader := inr [inr (Some (lit "  ")); inr None;
                                 inr (Some [10%N])] |}) false [] =
    (StSpinner msg_spinner
       :: ChatCompletionsCreate groq_model
            (prompt_head ++ [] ++ prompt_middle ++ lit "dev" ++ prompt_tail)
       :: rest, o).
Proof.
  apply (C10_blank_text_is_not_refused (fun _ => inr [Some scenario_2])
           (lit "dev")
           {| PdfReader := inr [inr (Some (lit "  ")); inr None;
                                inr (Some [10%N])] |}
           false
           [inr (Some (lit "  ")); inr None; inr (Some [10%N])]
           (lit "  " ++ [10%N]));
    [reflexivity | reflexivity | discriminate | reflexivity | reflexivity].
Defined.

(** * Further properties of the code *)

(** ** Text extraction (lines 31-38) *)

Lemma lstrip_no_leading (s : str) (c : char) (r : str) :
  lstrip s = c :: r -> isspace c = false.
Proof.
  induction s as [|a s IH]; simpl; [discriminate|].
  destruct (isspace a) eqn:Ha; [exact IH|].
  intros H. injection H as <- _. exact Ha.
Qed.

Lemma lstrip_suffix (s : str) : exists p, s = p ++ lstrip s.
Proof.
  induction s as [|a s [p IH]]; simpl.
  - now exists [].
  - destruct (isspace a).
    + exists (a :: p). simpl. now rewrite <- IH.
    + now exists [].
Qed.

Lemma strip_no_leading (s : str) (c : char) (r : str) :
  strip s = c :: r -> isspace c = false.
Proof.
  unfold strip, rstrip. intros H.
  destruct (lstrip_suffix (rev (lstrip s))) as [p Hp].
  apply (f_equal (@rev char)) in Hp.
  rewrite rev_involutive, rev_app_distr, H in Hp. simpl in Hp.
  exact (lstrip_no_leading s _ _ Hp).
Qed.

Lemma strip_no_trailing (s : str) (i : str) (c : char) :
  strip s = i ++ [c] -> isspace c = false.
Proof.
  unfold strip, rstrip. intros H.
  apply (f_equal (@rev char)) in H.
  rewrite rev_involutive, rev_app_distr in H. simpl in H.
  exact (lstrip_no_leading _ _ _ H).
Qed.

Lemma join_pages_texts (ts : list (option str)) :
  join_pages (map (@inr exn (option str)) ts) =
  inr (List.concat (map page_text ts)).
Proof.
  induction ts as [|t ts IH]; simpl; [reflexivity|]. now rewrite IH.
Qed.

Lemma join_pages_first_failure (ts : list (option str)) (e : exn)
      (rest : list page) :
  join_pages (map (@inr exn (option str)) ts ++ inl e :: rest) = inl e.
Proof.
  induction ts as [|t ts IH]; simpl; [reflexivity|]. now rewrite IH.
Qed.

Lemma input_pdf_text_failure (up : UploadedFile) (e : exn) (s : log) :
  PdfReader up = inl e \/
  (exists pages, PdfReader up = inr pages /\ join_pages pages = inl e) ->
  input_pdf_text up s = (s ++ [StErrorExn msg_pdf_error e], Ok None).
Proof.
  unfold input_pdf_text, try_except, bind, lift.
  intros [Hr | [pages [Hr Hj]]]; rewrite Hr; simpl; [reflexivity|].
  now rewrite Hj.
Qed.

(** The two ways [input_pdf_text] can go. *)
Lemma input_pdf_text_cases (up : UploadedFile) (s : log) :
  (exists e,
      (PdfReader up = inl e \/
       exists pages, PdfReader up = inr pages /\ join_pages pages = inl e)
      /\ input_pdf_text up s = (s ++ [StErrorExn msg_pdf_error e], Ok None))
  \/
  (exists pages t,
      PdfReader up = inr pages /\ join_pages pages = inr t /\
      input_pdf_text up s =
      (s, Ok (if truthy t then Some (strip t) else None))).
Proof.
  destruct (PdfReader up) as [e | pages] eqn:Hr.
  - left. exists e. split; [now left|].
    apply input_pdf_text_failure. now left.
  - destruct (join_pages pages) as [e | t] eqn:Hj.
    + left. exists e. split; [right; now exists pages|].
      apply input_pdf_text_failure. right. now exists pages.
    + right. exists pages, t.
      split; [reflexivity|]. split; [exact Hj|].
      apply input_pdf_text_pages with (pages := pages); assumption.
Qed.

(** X1: [input_pdf_text] never lets an exception out.  Whatever the PDF
    library does with the upload, the function returns; it has either
    shown nothing, or shown the one reading error and returned [None]. *)
Theorem X1_input_pdf_text_never_raises (up : UploadedFile) (s : log) :
  exists shown r,
    input_pdf_text up s = (s ++ shown, Ok r) /\
    (shown = [] \/
     (r = None /\ exists e, shown = [StErrorExn msg_pdf_error e])).
Proof.
  destruct (input_pdf_text_cases up s) as [[e [_ H]] | [pages [t [_ [_ H]]]]].
  - exists [StErrorExn msg_pdf_error e], None. split; [exact H|].
    right. split; [reflexivity | now exists e].
  - exists [], (if truthy t then Some (strip t) else None).
    rewrite app_nil_r. split; [exact H | now left].
Qed.

(** X2: a text that [input_pdf_text] returns neither starts nor ends
    with a white space character. *)
Theorem X2_extracted_text_is_stripped (up : UploadedFile) (s s' : log)
        (text : str) :
  input_pdf_text up s = (s', Ok (Some text)) ->
  (forall c r, text = c :: r -> isspace c = false) /\
  (forall i c, text = i ++ [c] -> isspace c = false).
Proof.
  intros H.
  destruct (input_pdf_text_cases up s) as [[e [_ H']] | [pages [t [_ [_ H']]]]];
    rewrite H' in H; [discriminate|].
  destruct (truthy t); [|discriminate].
  injection H as _ <-. split.
  - intros c r Hc. exact (strip_no_leading t c r Hc).
  - intros i c Hc. exact (strip_no_trailing t i c Hc).
Qed.

Lemma X2_witness_padded_page :
  input_pdf_text {| PdfReader := inr [inr (Some (lit "  cv ")); inr None;
                                      inr (Some [10%N])] |} [] =
  ([], Ok (Some (lit "cv"))) /\
  (forall c r, lit "cv" = c :: r -> isspace c = false) /\
  (forall i c, lit "cv" = i ++ [c] -> isspace c = false).
Proof.
  split; [reflexivity|].
  apply (X2_extracted_text_is_stripped
           {| PdfReader := inr [inr (Some (lit "  cv ")); inr None;
                                inr (Some [10%N])] |} [] [] (lit "cv")).
  reflexivity.
Defined.

(** X3: when every page can be read, the text is the concatenation of
    the page texts in page order, a page without text counting as empty,
    stripped, or [None] if the concatenation is empty; when a page
    cannot be read, the exception of the first such page is the one
    reported, whatever the later pages hold. *)
Theorem X3_pages_are_joined_in_order :
  (forall (ts : list (option str)) (s : log),
      input_pdf_text {| PdfReader := inr (map (@inr exn (option str)) ts) |} s
      = (s, Ok (if truthy (List.concat (map page_text ts))
                then Some (strip (List.concat (map page_text ts)))
                else None)))
  /\
  (forall (ts : list (option str)) (e : exn) (rest : list page) (s : log),
      input_pdf_text
        {| PdfReader := inr (map (@inr exn (option str)) ts ++ inl e :: rest) |}
        s
      = (s ++ [StErrorExn msg_pdf_error e], Ok None)).
Proof.
  split.
  - intros ts s.
    apply input_pdf_text_pages with (pages := map (@inr exn (option str)) ts);
      [reflexivity | apply join_pages_texts].
  - intros ts e rest s. apply input_pdf_text_failure. right.
    exists (map (@inr exn (option str)) ts ++ inl e :: rest).
    split; [reflexivity | apply join_pages_first_failure].
Qed.

(** ** The completion call (lines 18-29) *)

Lemma get_groq_response_cases (create : str -> exn + list (option str))
      (input_text : str) (s : log) :
  (exists content choices,
      create input_text = inr (content :: choices) /\
      get_groq_response create input_text s =
      (s ++ [ChatCompletionsCreate groq_model input_text], Ok content))
  \/
  (exists e,
      (create input_text = inl e \/
       (create input_text = inr [] /\ e = IndexError)) /\
      get_groq_response create input_text s =
      (s ++ [ChatCompletionsCreate groq_model input_text;
             StErrorExn msg_groq_error e], Ok None)).
Proof.
  unfold get_groq_response, try_except, bind, emit, lift, ret, raise.
  simpl.
  destruct (create input_text) as [e | [| content choices]]; simpl.
  - right. exists e. split; [now left|]. now rewrite <- app_assoc.
  - right. exists IndexError. split; [now right|]. now rewrite <- app_assoc.
  - left. now exists content, choices.
Qed.

(** X4: [get_groq_response] sends exactly one request, with the fixed
    model and the input text as it is, and never lets an exception out:
    it returns the content of the first choice and shows nothing, or,
    when the call raised or there is no choice, shows that error and
    returns [None]. *)
Theorem X4_get_groq_response_never_raises
        (create : str -> exn + list (option str)) (input_text : str)
        (s : log) :
  exists shown r,
    get_groq_response create input_text s =
    (s ++ ChatCompletionsCreate groq_model input_text :: shown, Ok r) /\
    ((shown = [] /\ exists choices, create input_text = inr (r :: choices))
     \/
     (r = None /\
      exists e,
        shown = [StErrorExn msg_groq_error e] /\
        (create input_text = inl e \/
         (create input_text = inr [] /\ e = IndexError)))).
Proof.
  destruct (get_groq_response_cases create input_text s)
    as [[content [choices [Hc H]]] | [e [Hc H]]].
  - exists [], content. split; [exact H|]. left.
    split; [reflexivity | now exists choices].
  - exists [StErrorExn msg_groq_error e], None. split; [exact H|]. right.
    split; [reflexivity|]. now exists e.
Qed.

(** ** What a computation may add to the log *)

Lemma emits_only_ret {A} (P : effect -> bool) (a : A) : emits_only P (ret a).
Proof. intros s. exists []. simpl. now rewrite app_nil_r. Qed.

Lemma emits_only_emit (P : effect -> bool) (e : effect) :
  P e = true -> emits_only P (emit e).
Proof. intros H s. exists [e]. simpl. now rewrite H. Qed.

Lemma emits_only_raise {A} (P : effect -> bool) (e : exn) :
  emits_only P (@raise A e).
Proof. intros s. exists []. simpl. now rewrite app_nil_r. Qed.

Lemma emits_only_stop {A} (P : effect -> bool) : emits_only P (@st_stop A).
Proof. intros s. exists []. simpl. now rewrite app_nil_r. Qed.

Lemma emits_only_lift {A} (P : effect -> bool) (r : exn + A) :
  emits_only P (lift r).
Proof. destruct r; [apply emits_only_raise | apply emits_only_ret]. Qed.

Lemma emits_only_bind {A B} (P : effect -> bool) (m : M A) (k : A -> M B) :
  emits_only P m -> (forall a, emits_only P (k a)) ->
  emits_only P (bind m k).
Proof.
  intros Hm Hk s. unfold bind.
  destruct (Hm s) as [l [Hl Pl]]. destruct (m s) as [s1 r]. simpl in Hl.
  subst s1.
  destruct r as [a| | |]; try (exists l; now split).
  destruct (Hk a (s ++ l)) as [l2 [Hl2 Pl2]].
  exists (l ++ l2). rewrite Hl2, app_assoc. split; [reflexivity|].
  rewrite forallb_app, Pl, Pl2. reflexivity.
Qed.

Lemma emits_only_try_except {A} (P : effect -> bool) (c : exn -> bool)
      (m : M A) (h : exn -> M A) :
  emits_only P m -> (forall e, emits_only P (h e)) ->
  emits_only P (try_except c m h).
Proof.
  intros Hm Hh s. unfold try_except.
  destruct (Hm s) as [l [Hl Pl]]. destruct (m s) as [s1 r]. simpl in Hl.
  subst s1.
  destruct r as [a|e| |]; try (exists l; now split).
  destruct (c e); [|exists l; now split].
  destruct (Hh e (s ++ l)) as [l2 [Hl2 Pl2]].
  exists (l ++ l2). rewrite Hl2, app_assoc. split; [reflexivity|].
  rewrite forallb_app, Pl, Pl2. reflexivity.
Qed.

Lemma emits_only_for_each {A} (P : effect -> bool) (l : list A)
      (body : A -> M unit) :
  (forall a, emits_only P (body a)) -> emits_only P (for_each l body).
Proof.
  intros Hb. induction l as [|x l IH]; simpl.
  - apply emits_only_ret.
  - apply emits_only_bind; [apply Hb | intros _; apply IH].
Qed.

Lemma emits_only_if {A} (P : effect -> bool) (b : bool) (m1 m2 : M A) :
  emits_only P m1 -> emits_only P m2 ->
  emits_only P (if b then m1 else m2).
Proof. now destruct b. Qed.

Ltac emits_only_tac :=
  repeat first
    [ apply emits_only_bind; [| intros]
    | apply emits_only_try_except; [| intros]
    | apply emits_only_for_each; intros
    | apply emits_only_if
    | apply emits_only_emit; reflexivity
    | apply emits_only_lift
    | apply emits_only_ret
    | apply emits_only_raise
    | apply emits_only_stop
    | match goal with
      | |- emits_only _ (let '(_, _) := ?p in _) => destruct p
      end ].

(** Parsing and showing a response sends nothing to the completion
    service. *)
Lemma parse_and_show_sends_nothing (response : str) (show_raw : bool) :
  emits_only not_request (parse_and_show response show_raw).
Proof. unfold parse_and_show, show_analysis. emits_only_tac. Qed.

(** ** Showing the report (lines 109-143) *)








Lemma keywords_ok_sized (v : pyvalue) :
  keywords_ok v = true -> exists n, py_len v = inr n.
Proof. destruct v; simpl; try discriminate; eauto. Qed.

Lemma py_len_scalar (v : pyvalue) :
  is_str v = false -> (forall l, v <> PyList l) -> (forall d, v <> PyDict d) ->
  py_len v = inl TypeError.
Proof.
  destruct v; simpl; intros H Hl Hd; try reflexivity; try discriminate.
  - now destruct (Hl items).
  - now destruct (Hd items).
Qed.



























(** ** The submit handler (lines 85-147) *)

(** X5: a job description that is empty or all white space stops the
    handler with the warning about it, whether a file was uploaded or
    not; the upload is not read and nothing is sent. *)
Theorem X5_blank_job_description_stops
        (create : str -> exn + list (option str)) (jd : str)
        (uploaded_file : option UploadedFile) (show_raw : bool) :
  forallb isspace jd = true ->
  submit_handler create jd uploaded_file show_raw [] =
  ([StWarning msg_need_jd], Stop).
Proof.
  intros H. unfold submit_handler. now rewrite (strip_all_space jd H).
Qed.

Lemma X5_witness_spaces_no_upload :
  submit_handler (fun _ => inr []) (lit "  ") None false [] =
  ([StWarning msg_need_jd], Stop).
Proof.
  apply (X5_blank_job_description_stops (fun _ => inr []) (lit "  ") None
           false).
  reflexivity.
Defined.

(** X6: with a job description and no uploaded file the handler stops
    with the warning about the resume. *)
Theorem X6_missing_upload_stops
        (create : str -> exn + list (option str)) (jd : str)
        (show_raw : bool) :
  truthy (strip jd) = true ->
  submit_handler create jd None show_raw [] =
  ([StWarning msg_need_upload], Stop).
Proof. intros H. unfold submit_handler. now rewrite H. Qed.

Lemma X6_witness_no_upload :
  submit_handler (fun _ => inr []) (lit " dev ") None false [] =
  ([StWarning msg_need_upload], Stop).
Proof.
  apply (X6_missing_upload_stops (fun _ => inr []) (lit " dev ") false).
  reflexivity.
Defined.

Lemma submit_handler_after_text
      (create : str -> exn + list (option str)) (jd : str)
      (up : UploadedFile) (show_raw : bool) (s1 : log) (r : option str) :
  truthy (strip jd) = true ->
  input_pdf_text up [StSpinner msg_spinner] = (s1, Ok r) ->
  submit_handler create jd (Some up) show_raw [] =
  match r with
  | None => (s1 ++ [StError msg_no_text], Stop)
  | Some text =>
      (response <-
         get_groq_response create
           (prompt_head ++ text ++ prompt_middle ++ jd ++ prompt_tail) ;;
       match response with
       | None => emit (StError msg_no_response) ;; st_stop
       | Some response => parse_and_show response show_raw
       end) s1
  end.
Proof.
  intros Hjd Ht. unfold submit_handler. rewrite Hjd.
  change (negb true) with false. cbv iota. rewrite bind_emit.
  rewrite (bind_ok _ _ _ _ _ Ht).
  destruct r as [text|]; [|reflexivity].
  rewrite compile_prompt_eq. reflexivity.
Qed.

Lemma input_pdf_text_none (up : UploadedFile) (s : log) :
  snd (input_pdf_text up []) = Ok None ->
  exists shown,
    input_pdf_text up s = (s ++ shown, Ok None) /\
    forallb is_pdf_error shown = true.
Proof.
  intros H.
  destruct (input_pdf_text_cases up s) as [[e [_ Hs]] | [pages [t [Hr [Hj Hs]]]]].
  - exists [StErrorExn msg_pdf_error e]. split; [exact Hs | reflexivity].
  - rewrite (input_pdf_text_pages up pages t [] Hr Hj) in H. simpl in H.
    exists []. rewrite app_nil_r. split; [|reflexivity].
    rewrite Hs. destruct (truthy t); [discriminate | reflexivity].
Qed.

Lemma input_pdf_text_some (up : UploadedFile) (s : log) (text : str) :
  snd (input_pdf_text up []) = Ok (Some text) ->
  input_pdf_text up s = (s, Ok (Some text)).
Proof.
  intros H.
  destruct (input_pdf_text_cases up s) as [[e [He Hs]] | [pages [t [Hr [Hj Hs]]]]].
  - rewrite (input_pdf_text_failure up e [] He) in H. discriminate.
  - rewrite (input_pdf_text_pages up pages t [] Hr Hj) in H. simpl in H.
    rewrite Hs. now rewrite H.
Qed.

(** X7: when no text comes out of the upload -- the PDF library raised,
    or the pages hold no text at all -- the handler shows the
    extraction error and stops; before that it has shown at most the
    reading error, and it has sent nothing. *)
Theorem X7_no_text_stops_before_completion
        (create : str -> exn + list (option str)) (jd : str)
        (up : UploadedFile) (show_raw : bool) :
  truthy (strip jd) = true ->
  snd (input_pdf_text up []) = Ok None ->
  exists shown,
    submit_handler create jd (Some up) show_raw [] =
    (StSpinner msg_spinner :: shown ++ [StError msg_no_text], Stop) /\
    forallb is_pdf_error shown = true.
Proof.
  intros Hjd Hn.
  destruct (input_pdf_text_none up [StSpinner msg_spinner] Hn)
    as [shown [Hs Hp]].
  exists shown. split; [|exact Hp].
  rewrite (submit_handler_after_text create jd up show_raw _ None Hjd Hs).
  reflexivity.
Qed.

Lemma X7_witness_empty_page :
  exists shown,
    submit_handler (fun _ => inr [Some scenario_1]) (lit "dev")
      (Some {| PdfReader := inr [inr (Some []); inr None] |}) false [] =
    (StSpinner msg_spinner :: shown ++ [StError msg_no_text], Stop) /\
    forallb is_pdf_error shown = true.
Proof.
  apply (X7_no_text_stops_before_completion
           (fun _ => inr [Some scenario_1]) (lit "dev")
           {| PdfReader := inr [inr (Some []); inr None] |} false);
    reflexivity.
Defined.

Lemma input_pdf_text_result (up : UploadedFile) :
  (exists text, snd (input_pdf_text up []) = Ok (Some text)) \/
  snd (input_pdf_text up []) = Ok None.
Proof.
  destruct (input_pdf_text_cases up []) as [[e [_ Hs]] | [pages [t [_ [_ Hs]]]]];
    rewrite Hs; simpl.
  - now right.
  - destruct (truthy t); [left; now exists (strip t) | now right].
Qed.

(** The ways the handler can go, from the first check to the last. *)
Lemma submit_handler_cases
      (create : str -> exn + list (option str)) (jd : str)
      (uploaded_file : option UploadedFile) (show_raw : bool) :
  submit_handler create jd uploaded_file show_raw [] =
  ([StWarning msg_need_jd], Stop)
  \/
  submit_handler create jd uploaded_file show_raw [] =
  ([StWarning msg_need_upload], Stop)
  \/
  (exists shown,
      submit_handler create jd uploaded_file show_raw [] =
      (StSpinner msg_spinner :: shown ++ [StError msg_no_text], Stop) /\
      forallb is_pdf_error shown = true)
  \/
  (exists up text,
      uploaded_file = Some up /\
      snd (input_pdf_text up []) = Ok (Some text) /\
      ((exists shown,
           submit_handler create jd uploaded_file show_raw [] =
           (StSpinner msg_spinner
              :: ChatCompletionsCreate groq_model
                   (prompt_head ++ text ++ prompt_middle ++ jd ++ prompt_tail)
              :: shown ++ [StError msg_no_response], Stop) /\
           forallb is_groq_error shown = true)
       \/
       (exists response,
           submit_handler create jd uploaded_file show_raw [] =
           parse_and_show response show_raw
             [StSpinner msg_spinner;
              ChatCompletionsCreate groq_model
                (prompt_head ++ text ++ prompt_middle ++ jd
                   ++ prompt_tail)]))).
Proof.
  destruct (truthy (strip jd)) eqn:Hjd;
    [| left; unfold submit_handler; now rewrite Hjd].
  destruct uploaded_file as [up|];
    [| right; left; unfold submit_handler; now rewrite Hjd].
  right. right.
  destruct (input_pdf_text_result up) as [[text Ht] | Hn].
  - right. exists up, text. split; [reflexivity|]. split; [exact Ht|].
    rewrite (submit_handler_after_text create jd up show_raw _ (Some text) Hjd
               (input_pdf_text_some up [StSpinner msg_spinner] text Ht)).
    destruct (get_groq_response_cases create
                (prompt_head ++ text ++ prompt_middle ++ jd ++ prompt_tail)
                [StSpinner msg_spinner])
      as [[content [choices [_ Hg]]] | [e [_ Hg]]].
    + rewrite (bind_ok _ _ _ _ _ Hg). destruct content as [response|].
      * right. now exists response.
      * left. exists []. split; reflexivity.
    + rewrite (bind_ok _ _ _ _ _ Hg). left.
      exists [StErrorExn msg_groq_error e]. split; reflexivity.
  - left.
    destruct (input_pdf_text_none up [StSpinner msg_spinner] Hn)
      as [shown [Hs Hp]].
    exists shown. split; [|exact Hp].
    now rewrite (submit_handler_after_text create jd up show_raw _ None Hjd Hs).
Qed.

Lemma filter_request_none (P : effect -> bool) (l : list effect) :
  (forall e, P e = true -> is_request e = false) ->
  forallb P l = true -> filter is_request l = [].
Proof.
  intros HP. induction l as [|e l IH]; simpl; [reflexivity|].
  intros H. apply andb_true_iff in H as [He Hl].
  now rewrite (HP e He), (IH Hl).
Qed.

Lemma pdf_error_not_request (e : effect) :
  is_pdf_error e = true -> is_request e = false.
Proof. destruct e; simpl; congruence. Qed.

Lemma groq_error_not_request (e : effect) :
  is_groq_error e = true -> is_request e = false.
Proof. destruct e; simpl; congruence. Qed.

Lemma not_request_not_request (e : effect) :
  not_request e = true -> is_request e = false.
Proof. unfold not_request. now destruct (is_request e). Qed.

(** X8: one run of the handler sends at most one request to the
    completion service (there is no retry).  When it sends one, the
    model is the fixed one and the content is the template filled with
    the text [input_pdf_text] returned and the job description exactly
    as typed, not stripped. *)
Theorem X8_at_most_one_request
        (create : str -> exn + list (option str)) (jd : str)
        (uploaded_file : option UploadedFile) (show_raw : bool) :
  filter is_request
    (fst (submit_handler create jd uploaded_file show_raw [])) = []
  \/
  exists up text,
    uploaded_file = Some up /\
    snd (input_pdf_text up []) = Ok (Some text) /\
    filter is_request
      (fst (submit_handler create jd uploaded_file show_raw [])) =
    [ChatCompletionsCreate groq_model
       (prompt_head ++ text ++ prompt_middle ++ jd ++ prompt_tail)].
Proof.
  destruct (submit_handler_cases create jd uploaded_file show_raw)
    as [H | [H | [[shown [H Hp]] | [up [text [Hu [Ht Hc]]]]]]].
  - left. now rewrite H.
  - left. now rewrite H.
  - left. rewrite H. cbn [fst filter is_request]. rewrite filter_app.
    now rewrite (filter_request_none is_pdf_error shown pdf_error_not_request Hp).
  - right. exists up, text. split; [exact Hu|]. split; [exact Ht|].
    destruct Hc as [[shown [H Hp]] | [response H]]; rewrite H.
    + cbn [fst filter is_request]. rewrite filter_app.
      now rewrite (filter_request_none is_groq_error shown
                     groq_error_not_request Hp).
    + destruct (parse_and_show_sends_nothing response show_raw
                  [StSpinner msg_spinner;
                   ChatCompletionsCreate groq_model
                     (prompt_head ++ text ++ prompt_middle ++ jd
                        ++ prompt_tail)]) as [l [-> Hl]].
      rewrite filter_app. cbn [filter is_request app].
      now rewrite (filter_request_none not_request l
                     not_request_not_request Hl).
Qed.









